(** * Rectangle: a validated, iterable value class

    Shallow embedding of [Custom Classes/rectangle.py].

    The class has three methods: [__init__] validates and stores the two
    dimensions, [__iter__] is a generator function yielding two one-entry
    dicts, and [__repr__] builds an f-string.  Python values are modelled by
    an inductive type covering the argument kinds the constructor tells
    apart, instances of caller-written subclasses of [int] included; the
    instance is its attribute dictionary; methods run in a small
    state-and-exception monad over that dictionary. *)

From Stdlib Require Import ZArith Ascii String Floats.SpecFloat.
From stdpp Require Import gmap strings pretty.

Local Open Scope string_scope.
Local Open Scope Z_scope.

(** ** Python values *)

(** Exceptions raised by the class or by the runtime on its behalf;
    [OtherError] is an exception of any other class, by the name of the
    class, as a method of a caller's class may raise. *)
Inductive exn : Type :=
  | TypeError (msg : string)
  | ValueError (msg : string)
  | AttributeError (msg : string)
  | OtherError (cls : string) (msg : string).

(** An instance of a caller-written subclass of [int].  The subclass may
    override the methods the class calls on its arguments, so the object
    is the integer it holds together with what these methods answer:
    the truth of [self <= 0], [format(self, "")] and [repr(self)].  The
    methods are taken to answer the same at every call and to leave the
    rectangle alone. *)
Record subint : Type := {
  sub_value : Z;
  sub_le_zero : exn + bool;
  sub_format : exn + string;
  sub_repr : exn + string
}.

(** The values a caller can pass as [length] and [width].  [int] is
    arbitrary precision, hence [Z]; [bool] is a subclass of [int];
    [float] is an IEEE-754 datum; [PSub] is an instance of a subclass of
    [int] other than [bool]. *)
Inductive pyval : Type :=
  | PNone
  | PBool (b : bool)
  | PInt (z : Z)
  | PFloat (f : spec_float)
  | PStr (s : string)
  | PSub (o : subint).

(** [isinstance(v, int)]: true of [int] and of every subclass of it, [bool]
    and a caller's own alike. *)
Definition isinstance_int (v : pyval) : bool :=
  match v with
  | PBool _ | PInt _ | PSub _ => true
  | PNone | PFloat _ | PStr _ => false
  end.

(** The integer an [int] instance denotes ([True] is 1, [False] is 0). *)
Definition int_value (v : pyval) : option Z :=
  match v with
  | PInt z => Some z
  | PBool b => Some (Z.b2z b)
  | PSub o => Some (sub_value o)
  | PNone | PFloat _ | PStr _ => None
  end.

(** The integer of an instance of [int] itself or of [bool], the two
    classes whose methods are the runtime's own. *)
Definition plain_int (v : pyval) : option Z :=
  match v with
  | PInt z => Some z
  | PBool b => Some (Z.b2z b)
  | PNone | PFloat _ | PStr _ | PSub _ => None
  end.

(** A value of a built-in class, as opposed to a caller's subclass. *)
Definition builtin (v : pyval) : bool :=
  match v with
  | PSub _ => false
  | PNone | PBool _ | PInt _ | PFloat _ | PStr _ => true
  end.

(** The truth of [v <= 0].  Numbers compare by value; ordering [None] or a
    [str] against an [int] raises [TypeError]; a NaN compares false; an
    instance of a subclass answers as its class decides. *)
Definition le_zero (v : pyval) : exn + bool :=
  match v with
  | PInt z => inr (z <=? 0)
  | PBool b => inr (Z.b2z b <=? 0)
  | PFloat f => inr (SFleb f (S754_zero false))
  | PSub o => sub_le_zero o
  | PStr _ =>
      inl (TypeError "'<=' not supported between instances of 'str' and 'int'")
  | PNone =>
      inl (TypeError
             "'<=' not supported between instances of 'NoneType' and 'int'")
  end.

(** ** The method monad

    A method body reads and writes the attribute dictionary of [self] and
    may raise.  Writes made before a [raise] stay in the dictionary: Python
    does not roll back. *)
Definition M (A : Type) : Type :=
  gmap string pyval -> gmap string pyval * (exn + A).

#[global] Instance M_ret : MRet M := fun A a self => (self, inr a).

#[global] Instance M_bind : MBind M := fun A B k m self =>
  match m self with
  | (self', inr a) => k a self'
  | (self', inl e) => (self', inl e)
  end.

Definition raise {A : Type} (e : exn) : M A := fun self => (self, inl e).

(** Lift the outcome of a pure runtime operation. *)
Definition lift {A : Type} (r : exn + A) : M A := fun self => (self, r).

(** [self.name = v] *)
Definition setattr (name : string) (v : pyval) : M unit :=
  fun self => (<[name := v]> self, inr tt).

(** [self.name] *)
Definition getattr (name : string) : M pyval := fun self =>
  match self !! name with
  | Some v => (self, inr v)
  | None =>
      (self,
       inl (AttributeError
              ("'Rectangle' object has no attribute '" +:+ name +:+ "'")))
  end.

(** ** Construction *)

Definition integers_msg : string := "Length and width must be integers.".
Definition positive_msg : string :=
  "Length and width must be positive integers.".

(** [a or b] on comparison results: [b] is evaluated only when [a] is
    false. *)
Definition or_else (a b : exn + bool) : M bool :=
  x ← lift a; if x : bool then mret true else lift b.

Definition __init__ (length width : pyval) : M unit :=
  if negb (isinstance_int length) || negb (isinstance_int width)
  then raise (TypeError integers_msg)
  else
    nonpos ← or_else (le_zero length) (le_zero width);
    if nonpos : bool
    then raise (ValueError positive_msg)
    else setattr "length" length;; setattr "width" width.

(** The call [Rectangle(length, width)]: a fresh instance with an empty
    attribute dictionary is handed to [__init__]; the instance is returned
    when [__init__] returns, and its exception propagates otherwise. *)
Definition Rectangle (length width : pyval) : exn + gmap string pyval :=
  match __init__ length width ∅ with
  | (self, inr _) => inr self
  | (_, inl e) => inl e
  end.

(** ** Iteration

    [__iter__] is a generator function: calling it runs none of its body
    and returns a generator suspended at the top.  The generator's own
    state is the point where its frame is suspended. *)
Inductive frame : Type :=
  | AtStart          (* created, body not entered *)
  | AfterLength      (* suspended at the first [yield] *)
  | AfterWidth       (* suspended at the second [yield] *)
  | Exhausted.       (* body has returned *)

Definition __iter__ : frame := AtStart.

(** [next(g)]: resume the body up to its next [yield].  [Some d] is the
    yielded dict, [None] is [StopIteration]; the second component is the
    generator afterwards. *)
Definition next (g : frame) : M (option (gmap string pyval) * frame) :=
  match g with
  | AtStart =>
      v ← getattr "length"; mret (Some {[ "length" := v ]}, AfterLength)
  | AfterLength =>
      v ← getattr "width"; mret (Some {[ "width" := v ]}, AfterWidth)
  | AfterWidth => mret (None, Exhausted)
  | Exhausted => mret (None, Exhausted)
  end.

(** A traversal abandoned after [n] calls of [next]. *)
Fixpoint advance (n : nat) (g : frame) : M frame :=
  match n with
  | O => mret g
  | S n' => r ← next g; advance n' r.2
  end.

(** [for item in g] collecting the items, as [list(g)] does: call [next]
    until [StopIteration].  The result is [None] when [fuel] calls were
    not enough to reach it. *)
Fixpoint drain (fuel : nat) (g : frame)
  : M (option (list (gmap string pyval))) :=
  match fuel with
  | O => mret None
  | S fuel' =>
      r ← next g;
      match r.1 with
      | None => mret (Some [])
      | Some d => rest ← drain fuel' r.2; mret (cons d <$> rest)
      end
  end.

(** [list(rect)]: a new generator from [__iter__], run to the end. *)
Definition to_list (fuel : nat) : M (option (list (gmap string pyval))) :=
  drain fuel __iter__.

(** ** Text of an integer

    The runtime refuses to convert an [int] of more than 4300 decimal
    digits to text (the default of [sys.set_int_max_str_digits], which the
    module does not change). *)

Definition int_max_str_digits : Z := 4300.

Definition int_limit_msg : string :=
  "Exceeds the limit (4300 digits) for integer string conversion; use sys.set_int_max_str_digits() to increase the limit".

(** The number of decimal digits of [z], sign apart. *)
Definition int_digits (z : Z) : nat := String.length (pretty (Z.abs z)).

Definition within_limit (z : Z) : bool :=
  Z.of_nat (int_digits z) <=? int_max_str_digits.

(** [str(z)], which is also [repr(z)] and [format(z, "")]. *)
Definition int_to_str (z : Z) : exn + string :=
  if within_limit z then inr (pretty z) else inl (ValueError int_limit_msg).

(** ** Display *)

Section Display.

(** [repr] of a [float] (the shortest digits that read back), which the
    class never reaches on a constructed instance, is left to the
    runtime. *)
Variable float_repr : spec_float -> string.

(** [format(v, "")], what an f-string field without a format spec
    inserts. *)
Definition format (v : pyval) : exn + string :=
  match v with
  | PNone => inr "None"
  | PBool true => inr "True"
  | PBool false => inr "False"
  | PInt z => int_to_str z
  | PFloat f => inr (float_repr f)
  | PStr s => inr s
  | PSub o => sub_format o
  end.

(** The fields of the f-string are evaluated and formatted from left to
    right, [self.length] before [self.width] is read. *)
Definition __repr__ : M string :=
  l ← getattr "length";
  a ← lift (format l);
  w ← getattr "width";
  b ← lift (format w);
  mret ("Rectangle(length=" +:+ a +:+ ", width=" +:+ b +:+ ")").

End Display.

(** ** The class invariant and the life of an instance *)

(** An [int] instance whose value is strictly positive. *)
Definition positive_int (v : pyval) : bool :=
  match int_value v with
  | Some z => 0 <? z
  | None => false
  end.

Definition invariant (self : gmap string pyval) : bool :=
  match self !! "length", self !! "width" with
  | Some l, Some w => positive_int l && positive_int w
  | _, _ => false
  end.

(** The operations the class offers on an instance. *)
Inductive op : Type :=
  | OpNext (g : frame)
  | OpAdvance (n : nat) (g : frame)
  | OpList (fuel : nat)
  | OpRepr (float_repr : spec_float -> string).

(** The instance after an operation, whatever the operation returned. *)
Definition after (o : op) (self : gmap string pyval) : gmap string pyval :=
  match o with
  | OpNext g => (next g self).1
  | OpAdvance n g => (advance n g self).1
  | OpList fuel => (to_list fuel self).1
  | OpRepr fr => (__repr__ fr self).1
  end.

(** The instance states met between construction by
    [Rectangle(length, width)] and the end of the object's life. *)
Inductive lifetime (length width : pyval) : gmap string pyval -> Prop :=
  | born self :
      Rectangle length width = inr self -> lifetime length width self
  | lives self o :
      lifetime length width self -> lifetime length width (after o self).

(** [Rectangle(5, 3)] after a [next], a [list] and a [repr]. *)
Definition used_5_3 : gmap string pyval :=
  after (OpRepr (fun _ => "")) (after (OpList 3) (after (OpNext AtStart)
    (<["width" := PInt 3]> (<["length" := PInt 5]> ∅)))).

(** Where a generator of an instance with both attributes stands after [n]
    calls of [next]. *)
Definition frame_after (n : nat) : frame :=
  match n with
  | 0%nat => AtStart
  | 1%nat => AfterLength
  | 2%nat => AfterWidth
  | _ => Exhausted
  end.

(** ** The module's top-level code *)

(** The exception [repr(v)] raises, if it raises: [repr] of [None], of a
    [bool], of a [float] and of a [str] always returns. *)
Definition repr_raises (v : pyval) : option exn :=
  match v with
  | PInt z => match int_to_str z with inl e => Some e | inr _ => None end
  | PSub o => match sub_repr o with inl e => Some e | inr _ => None end
  | PNone | PBool _ | PFloat _ | PStr _ => None
  end.

(** The exception [print(item)] raises, if it raises: the text of a dict
    takes [repr] of each of its values in turn.  (The dicts of this module
    have one entry; standard output is taken to accept what is written.) *)
Definition print_raises (item : gmap string pyval) : option exn :=
  head (omap repr_raises (map_to_list item).*2).

(** [for item in g: print(item)].  [print(item)] writes [str(item)] and a
    newline to standard output; the output is recorded as the list of the
    values printed, oldest first.  An exception leaves the loop with what
    was printed before it; [None] means [fuel] calls of [next] did not
    reach the end of the loop. *)
Fixpoint for_print (fuel : nat) (g : frame) (self : gmap string pyval)
    (out : list (gmap string pyval))
  : option (gmap string pyval * list (gmap string pyval) * (exn + unit)) :=
  match fuel with
  | O => None
  | S fuel' =>
      match next g self with
      | (self', inl e) => Some (self', out, inl e)
      | (self', inr (None, _)) => Some (self', out, inr tt)
      | (self', inr (Some item, g')) =>
          match print_raises item with
          | Some e => Some (self', out, inl e)
          | None => for_print fuel' g' self' (out ++ [item])
          end
      end
  end.

(** [for item in items: print(item)] over a list already built. *)
Fixpoint print_items (items out : list (gmap string pyval))
  : list (gmap string pyval) * (exn + unit) :=
  match items with
  | [] => (out, inr tt)
  | item :: rest =>
      match print_raises item with
      | Some e => (out, inl e)
      | None => print_items rest (out ++ [item])
      end
  end.

(** The statements after the class: [rect = Rectangle(5, 3)], then the
    loop over a new generator of [rect].  The result is what was printed
    and how the module ended. *)
Definition script (fuel : nat)
  : option (list (gmap string pyval) * (exn + unit)) :=
  match Rectangle (PInt 5) (PInt 3) with
  | inl e => Some ([], inl e)
  | inr rect =>
      match for_print fuel __iter__ rect [] with
      | Some (_, out, r) => Some (out, r)
      | None => None
      end
  end.

(** ** Inputs of interest *)

(** An instance of [class Sly(int)] whose [__le__] returns [False]
    whatever it is compared with, and which overrides nothing else. *)
Definition Sly (z : Z) : pyval :=
  PSub {| sub_value := z;
          sub_le_zero := inr false;
          sub_format := int_to_str z;
          sub_repr := int_to_str z |}.

(** The smallest positive [int] of 4301 digits. *)
Definition huge : Z := 10 ^ 4300.

(** ** Characters of a text *)

(** Every character of [s] satisfies [p]. *)
Fixpoint all_chars (p : ascii -> bool) (s : string) : bool :=
  match s with
  | EmptyString => true
  | String c s' => p c && all_chars p s'
  end.

(** A decimal digit. *)
Definition is_digit (c : ascii) : bool :=
  match c with
  | "0" | "1" | "2" | "3" | "4" | "5" | "6" | "7" | "8" | "9" => true
  | _ => false
  end%char.

(** A character of a field of the text of a constructed instance: a digit
    or a letter of [True]. *)
Definition field_char (c : ascii) : bool :=
  is_digit c ||
  match c with
  | "T" | "r" | "u" | "e" => true
  | _ => false
  end%char.

(** * Properties *)

(** ** The outcomes of [__init__] *)

Lemma positive_int_spec v :
  positive_int v = true <-> exists z, int_value v = Some z /\ 0 < z.
Proof.
  unfold positive_int. split.
  - destruct (int_value v) as [z|]; [|discriminate].
    intros H%Z.ltb_lt. eauto.
  - intros (z & -> & H). by apply Z.ltb_lt.
Qed.

Lemma int_value_isinstance v z : int_value v = Some z -> isinstance_int v = true.
Proof. by destruct v. Qed.

Lemma isinstance_int_value v :
  isinstance_int v = false <-> int_value v = None.
Proof. by destruct v. Qed.

Lemma plain_int_value v z :
  plain_int v = Some z -> int_value v = Some z /\ builtin v = true.
Proof. by destruct v. Qed.

Lemma builtin_plain_int v : builtin v = true -> plain_int v = int_value v.
Proof. by destruct v. Qed.

Lemma le_zero_plain v z : plain_int v = Some z -> le_zero v = inr (z <=? 0).
Proof. destruct v; simpl; congruence. Qed.

Lemma init_not_int length width self :
  isinstance_int length = false \/ isinstance_int width = false ->
  __init__ length width self = (self, inl (TypeError integers_msg)).
Proof.
  intros H. unfold __init__.
  assert (negb (isinstance_int length) || negb (isinstance_int width) = true)
    as ->; [|done].
  destruct H as [-> | ->]; [done | apply orb_true_r].
Qed.

(** Past the type check, the two comparisons decide. *)
Lemma init_compares length width self :
  isinstance_int length = true -> isinstance_int width = true ->
  __init__ length width self
  = match le_zero length with
    | inl e => (self, inl e)
    | inr true => (self, inl (ValueError positive_msg))
    | inr false =>
        match le_zero width with
        | inl e => (self, inl e)
        | inr true => (self, inl (ValueError positive_msg))
        | inr false =>
            (<["width" := width]> (<["length" := length]> self), inr tt)
        end
    end.
Proof.
  intros Hl Hw. unfold __init__. rewrite Hl, Hw. simpl.
  unfold or_else, mbind, M_bind, lift, mret, M_ret, raise, setattr.
  destruct (le_zero length) as [e|[|]]; [done..|].
  by destruct (le_zero width) as [e|[|]].
Qed.

Lemma init_not_positive length width a b self :
  plain_int length = Some a -> plain_int width = Some b ->
  a <= 0 \/ b <= 0 ->
  __init__ length width self = (self, inl (ValueError positive_msg)).
Proof.
  intros Ha Hb H.
  destruct (plain_int_value _ _ Ha) as [Hia _].
  destruct (plain_int_value _ _ Hb) as [Hib _].
  rewrite init_compares by eauto using int_value_isinstance.
  rewrite (le_zero_plain _ _ Ha), (le_zero_plain _ _ Hb).
  destruct (Z.leb_spec a 0); [done|].
  destruct (Z.leb_spec b 0); [done | lia].
Qed.

Lemma init_positive length width a b self :
  plain_int length = Some a -> plain_int width = Some b ->
  0 < a -> 0 < b ->
  __init__ length width self
  = (<["width" := width]> (<["length" := length]> self), inr tt).
Proof.
  intros Ha Hb Hpa Hpb.
  destruct (plain_int_value _ _ Ha) as [Hia _].
  destruct (plain_int_value _ _ Hb) as [Hib _].
  rewrite init_compares by eauto using int_value_isinstance.
  rewrite (le_zero_plain _ _ Ha), (le_zero_plain _ _ Hb).
  destruct (Z.leb_spec a 0); [lia|].
  destruct (Z.leb_spec b 0); [lia | done].
Qed.

(** On arguments of built-in classes a call takes one of three ways out,
    by what the arguments are. *)
Lemma init_cases length width self :
  builtin length = true -> builtin width = true ->
  ((isinstance_int length = false \/ isinstance_int width = false) /\
   __init__ length width self = (self, inl (TypeError integers_msg))) \/
  (exists a b,
     plain_int length = Some a /\ plain_int width = Some b /\
     (a <= 0 \/ b <= 0) /\
     __init__ length width self = (self, inl (ValueError positive_msg))) \/
  (exists a b,
     plain_int length = Some a /\ plain_int width = Some b /\
     0 < a /\ 0 < b /\
     __init__ length width self
     = (<["width" := width]> (<["length" := length]> self), inr tt)).
Proof.
  intros Hbl Hbw.
  destruct (plain_int length) as [a|] eqn:Ha.
  2:{ left. rewrite builtin_plain_int in Ha by done.
      apply isinstance_int_value in Ha.
      split; [auto | apply init_not_int; auto]. }
  destruct (plain_int width) as [b|] eqn:Hb.
  2:{ left. rewrite builtin_plain_int in Hb by done.
      apply isinstance_int_value in Hb.
      split; [auto | apply init_not_int; auto]. }
  right. destruct (Z.lt_ge_cases 0 a) as [Hpa|Hpa].
  2:{ left. exists a, b. split_and!; [done | done | auto |].
      apply (init_not_positive _ _ a b); auto. }
  destruct (Z.lt_ge_cases 0 b) as [Hpb|Hpb].
  2:{ left. exists a, b. split_and!; [done | done | auto |].
      apply (init_not_positive _ _ a b); auto. }
  right. exists a, b. split_and!; [done..|].
  by apply (init_positive _ _ a b).
Qed.

(** What [__init__] does on an instance that already has attributes follows
    what the call does on a fresh one. *)
Lemma init_as_Rectangle length width before :
  match Rectangle length width with
  | inl e => __init__ length width before = (before, inl e)
  | inr _ =>
      __init__ length width before
      = (<["width" := width]> (<["length" := length]> before), inr tt)
  end.
Proof.
  unfold Rectangle.
  destruct (isinstance_int length) eqn:Hl;
    [|by rewrite !init_not_int by auto].
  destruct (isinstance_int width) eqn:Hw;
    [|by rewrite !init_not_int by auto].
  rewrite !init_compares by done.
  destruct (le_zero length) as [e|[|]]; [done..|].
  by destruct (le_zero width) as [e|[|]].
Qed.

(** What a successful call returns. *)
Lemma Rectangle_stores length width self :
  Rectangle length width = inr self ->
  self = <["width" := width]> (<["length" := length]> ∅).
Proof.
  intros H. pose proof (init_as_Rectangle length width ∅) as Hinit.
  rewrite H in Hinit. unfold Rectangle in H. rewrite Hinit in H. congruence.
Qed.

Lemma Rectangle_positive length width a b :
  plain_int length = Some a -> plain_int width = Some b ->
  0 < a -> 0 < b ->
  Rectangle length width
  = inr (<["width" := width]> (<["length" := length]> ∅)).
Proof.
  intros Ha Hb Hpa Hpb. unfold Rectangle.
  by rewrite (init_positive _ _ a b).
Qed.

(** The outcome of a call on arguments of built-in classes. *)
Lemma Rectangle_cases length width :
  builtin length = true -> builtin width = true ->
  ((isinstance_int length = false \/ isinstance_int width = false) /\
   Rectangle length width = inl (TypeError integers_msg)) \/
  (exists a b,
     plain_int length = Some a /\ plain_int width = Some b /\
     (a <= 0 \/ b <= 0) /\
     Rectangle length width = inl (ValueError positive_msg)) \/
  (exists a b,
     plain_int length = Some a /\ plain_int width = Some b /\
     0 < a /\ 0 < b /\
     Rectangle length width
     = inr (<["width" := width]> (<["length" := length]> ∅))).
Proof.
  intros Hbl Hbw. unfold Rectangle.
  destruct (init_cases length width ∅ Hbl Hbw)
    as [[Hty ->] | [(a & b & Ha & Hb & Hle & ->)
                   | (a & b & Ha & Hb & Hpa & Hpb & ->)]];
    [left | right; left | right; right]; eauto 10.
Qed.

(** On arguments of built-in classes only strictly positive ones are
    accepted. *)
Lemma Rectangle_builtin_positive length width self :
  builtin length = true -> builtin width = true ->
  Rectangle length width = inr self ->
  positive_int length = true /\ positive_int width = true.
Proof.
  intros Hbl Hbw H.
  destruct (Rectangle_cases length width Hbl Hbw)
    as [[_ HT] | [(a & b & _ & _ & _ & HV) | (a & b & Ha & Hb & ? & ? & _)]];
    [congruence.. |].
  apply plain_int_value in Ha as [Ha _]. apply plain_int_value in Hb as [Hb _].
  split; apply positive_int_spec; eauto.
Qed.

(** ** Reading the attributes *)

Lemma getattr_reads name self : (getattr name self).1 = self.
Proof. unfold getattr. by destruct (self !! name). Qed.

Lemma getattr_found name v self :
  self !! name = Some v -> getattr name self = (self, inr v).
Proof. unfold getattr. by intros ->. Qed.

Lemma next_reads g self : (next g self).1 = self.
Proof.
  destruct g; simpl; unfold mbind, M_bind, getattr; try done;
    by destruct (self !! _).
Qed.

Lemma advance_reads n : forall g self, (advance n g self).1 = self.
Proof.
  induction n as [|n IH]; intros g self; [done|].
  simpl. unfold mbind, M_bind.
  pose proof (next_reads g self) as Hn.
  destruct (next g self) as [s [e|r]]; simpl in *; subst s; [done|].
  apply IH.
Qed.

Lemma drain_reads fuel : forall g self, (drain fuel g self).1 = self.
Proof.
  induction fuel as [|fuel IH]; intros g self; [done|].
  simpl. unfold mbind at 1, M_bind at 1.
  pose proof (next_reads g self) as Hn.
  destruct (next g self) as [s [e|[[d|] g']]]; simpl in *; subst s;
    [done| |done].
  unfold mbind, M_bind. specialize (IH g' self).
  by destruct (drain fuel g' self) as [s [e|rest]]; simpl in *; subst s.
Qed.

(** [__repr__], step by step. *)
Lemma repr_unfold float_repr self :
  __repr__ float_repr self
  = match self !! "length" with
    | None =>
        (self,
         inl (AttributeError "'Rectangle' object has no attribute 'length'"))
    | Some l =>
        match format float_repr l with
        | inl e => (self, inl e)
        | inr a =>
            match self !! "width" with
            | None =>
                (self,
                 inl (AttributeError
                        "'Rectangle' object has no attribute 'width'"))
            | Some w =>
                match format float_repr w with
                | inl e => (self, inl e)
                | inr b =>
                    (self,
                     inr ("Rectangle(length=" +:+ a +:+ ", width=" +:+ b
                          +:+ ")"))
                end
            end
        end
    end.
Proof.
  unfold __repr__, mbind, M_bind, getattr, lift.
  destruct (self !! "length") as [l|]; [|done].
  destruct (format float_repr l) as [e|a]; [done|].
  destruct (self !! "width") as [w|]; [|done].
  by destruct (format float_repr w) as [e|b].
Qed.

Lemma repr_reads float_repr self : (__repr__ float_repr self).1 = self.
Proof.
  rewrite repr_unfold.
  destruct (self !! "length") as [l|]; [|done].
  destruct (format float_repr l) as [e|a]; [done|].
  destruct (self !! "width") as [w|]; [|done].
  by destruct (format float_repr w) as [e|b].
Qed.

Lemma after_reads o self : after o self = self.
Proof.
  destruct o; simpl.
  - apply next_reads.
  - apply advance_reads.
  - apply drain_reads.
  - apply repr_reads.
Qed.

(** ** One turn of the loop *)

Lemma drain_stop fuel g g' self self' :
  next g self = (self', inr (None, g')) ->
  drain (S fuel) g self = (self', inr (Some [])).
Proof. intros H. simpl. unfold mbind, M_bind. by rewrite H. Qed.

Lemma drain_item fuel g g' d rest self self' self'' :
  next g self = (self', inr (Some d, g')) ->
  drain fuel g' self' = (self'', inr rest) ->
  drain (S fuel) g self = (self'', inr (cons d <$> rest)).
Proof.
  intros Hnext Hrest. simpl. unfold mbind at 1, M_bind at 1.
  rewrite Hnext. simpl. unfold mbind, M_bind. by rewrite Hrest.
Qed.

(** ** Traversing an instance that has both attributes *)

Section Traversal.

Variables (self : gmap string pyval) (l w : pyval).
Hypothesis Hlength : self !! "length" = Some l.
Hypothesis Hwidth : self !! "width" = Some w.

Lemma next_at_start :
  next AtStart self = (self, inr (Some {[ "length" := l ]}, AfterLength)).
Proof. simpl. unfold mbind, M_bind. by rewrite (getattr_found _ l). Qed.

Lemma next_after_length :
  next AfterLength self = (self, inr (Some {[ "width" := w ]}, AfterWidth)).
Proof. simpl. unfold mbind, M_bind. by rewrite (getattr_found _ w). Qed.

Lemma next_after_width : next AfterWidth self = (self, inr (None, Exhausted)).
Proof. done. Qed.

Lemma next_exhausted : next Exhausted self = (self, inr (None, Exhausted)).
Proof. done. Qed.

Lemma next_returns g : exists r, next g self = (self, inr r).
Proof.
  destruct g; eauto using next_at_start, next_after_length,
    next_after_width, next_exhausted.
Qed.

Lemma advance_returns n : forall g, exists g', advance n g self = (self, inr g').
Proof.
  induction n as [|n IH]; intros g; [by exists g|].
  destruct (next_returns g) as [r Hr].
  simpl. unfold mbind, M_bind. rewrite Hr. apply IH.
Qed.

Lemma drain_returns fuel : forall g, exists r, drain fuel g self = (self, inr r).
Proof.
  induction fuel as [|fuel IH]; intros g; [by exists None|].
  destruct (next_returns g) as [[[d|] g'] Hr];
    simpl; unfold mbind at 1, M_bind at 1; rewrite Hr; simpl;
    [|by eexists].
  destruct (IH g') as [rest Hrest].
  unfold mbind, M_bind. rewrite Hrest. by eexists.
Qed.

(** Three calls of [next] reach [StopIteration], and more fuel changes
    nothing. *)
Lemma to_list_both fuel :
  (3 <= fuel)%nat ->
  to_list fuel self
  = (self, inr (Some [ {[ "length" := l ]}; {[ "width" := w ]} ])).
Proof.
  intros Hfuel. destruct fuel as [|[|[|fuel]]]; [lia..|].
  unfold to_list, __iter__.
  eapply (drain_item _ _ _ _ (Some [_])); [apply next_at_start|].
  eapply (drain_item _ _ _ _ (Some [])); [apply next_after_length|].
  eapply drain_stop, next_after_width.
Qed.

Lemma repr_both float_repr a b :
  format float_repr l = inr a -> format float_repr w = inr b ->
  __repr__ float_repr self
  = (self, inr ("Rectangle(length=" +:+ a +:+ ", width=" +:+ b +:+ ")")).
Proof.
  intros Ha Hb. by rewrite repr_unfold, Hlength, Ha, Hwidth, Hb.
Qed.

End Traversal.

Lemma Rectangle_attrs length width self :
  Rectangle length width = inr self ->
  self !! "length" = Some length /\ self !! "width" = Some width.
Proof.
  intros ->%Rectangle_stores. split.
  - by rewrite lookup_insert_ne, lookup_insert_eq.
  - by rewrite lookup_insert_eq.
Qed.

(** No operation changes the instance, so it stays the constructed one. *)
Lemma lifetime_constant length width self :
  lifetime length width self -> Rectangle length width = inr self.
Proof. induction 1 as [|self o _ IH]; [done | by rewrite after_reads]. Qed.

Lemma invariant_both self l w :
  self !! "length" = Some l -> self !! "width" = Some w ->
  positive_int l = true -> positive_int w = true ->
  invariant self = true.
Proof. unfold invariant. by intros -> -> -> ->. Qed.

(** ** The digits of an integer *)

Lemma length_pretty_N_go_ge x :
  forall s, (String.length s <= String.length (pretty_N_go x s))%nat.
Proof.
  induction (N.lt_wf_0 x) as [x _ IH]. intros s.
  destruct (decide (x = 0%N)) as [->|Hx]; [by rewrite pretty_N_go_0|].
  rewrite pretty_N_go_step by lia.
  etrans; [|apply IH, N.div_lt; lia]. simpl. lia.
Qed.

(** A number below [10 ^ k] has at most [k] digits. *)
Lemma digits_le (k : nat) :
  forall x s,
    (x < 10 ^ N.of_nat k)%N ->
    (String.length (pretty_N_go x s) <= String.length s + k)%nat.
Proof.
  induction k as [|k IH]; intros x s Hx.
  - assert (x = 0%N) as -> by (simpl in Hx; lia).
    rewrite pretty_N_go_0. lia.
  - destruct (decide (x = 0%N)) as [->|Hx0]; [rewrite pretty_N_go_0; lia|].
    rewrite pretty_N_go_step by lia.
    rewrite Nat2N.inj_succ, N.pow_succ_r' in Hx.
    etrans; [apply IH, N.Div0.div_lt_upper_bound; exact Hx|].
    simpl. lia.
Qed.

(** A number from [10 ^ k] on has more than [k] digits. *)
Lemma digits_gt (k : nat) :
  forall x s,
    (10 ^ N.of_nat k <= x)%N ->
    (String.length s + k < String.length (pretty_N_go x s))%nat.
Proof.
  induction k as [|k IH]; intros x s Hx.
  - rewrite pretty_N_go_step by (simpl in Hx; lia).
    eapply Nat.lt_le_trans; [|apply length_pretty_N_go_ge]. simpl. lia.
  - rewrite Nat2N.inj_succ, N.pow_succ_r' in Hx.
    assert (10 ^ N.of_nat k <> 0)%N as Hpow by by apply N.pow_nonzero.
    assert (0 < x)%N as Hx0.
    { revert Hx Hpow. generalize (10 ^ N.of_nat k)%N. intros q ??. lia. }
    rewrite pretty_N_go_step by done.
    eapply Nat.le_lt_trans;
      [|apply IH, N.div_le_lower_bound; [done | exact Hx]].
    simpl. lia.
Qed.

Lemma int_digits_pos p :
  int_digits (Z.pos p) = String.length (pretty_N_go (N.pos p) "") /\
  int_digits (Z.neg p) = String.length (pretty_N_go (N.pos p) "").
Proof.
  unfold int_digits.
  change (Z.abs (Z.pos p)) with (Z.pos p).
  change (Z.abs (Z.neg p)) with (Z.pos p).
  change (pretty (Z.pos p)) with (pretty (N.pos p)).
  unfold pretty, pretty_N. by case_decide.
Qed.

Lemma pos_below_pow p (k : nat) :
  Z.pos p < 10 ^ Z.of_nat k <-> (N.pos p < 10 ^ N.of_nat k)%N.
Proof.
  rewrite N2Z.inj_lt, N2Z.inj_pow, nat_N_Z. done.
Qed.

(** The digit count against the magnitude, for any limit. *)
Lemma int_digits_bound z (k : nat) :
  (1 <= k)%nat ->
  (int_digits z <= k)%nat <-> Z.abs z < 10 ^ Z.of_nat k.
Proof.
  intros Hk.
  assert (forall p, (String.length (pretty_N_go (N.pos p) "") <= k)%nat
                    <-> Z.pos p < 10 ^ Z.of_nat k) as Hpos.
  { intros p. rewrite pos_below_pow. split.
    - intros Hlen. apply N.lt_nge. intros Hge.
      pose proof (digits_gt k (N.pos p) "" Hge) as Hgt. simpl in Hgt. lia.
    - intros Hlt. pose proof (digits_le k (N.pos p) "" Hlt) as Hle.
      simpl in Hle. lia. }
  destruct z as [|p|p].
  - split; [intros _|done].
    apply Z.pow_pos_nonneg; [done | apply Nat2Z.is_nonneg].
  - destruct (int_digits_pos p) as [-> _]. apply Hpos.
  - destruct (int_digits_pos p) as [_ ->]. apply Hpos.
Qed.

Lemma within_limit_spec z : within_limit z = true <-> Z.abs z < huge.
Proof.
  unfold within_limit, int_max_str_digits, huge.
  assert (Z.of_nat 4300 = 4300) as Hk by done.
  rewrite <- Hk at 1 2. rewrite Z.leb_le, <- Nat2Z.inj_le.
  apply int_digits_bound. apply Nat.lt_0_succ.
Qed.

Lemma int_to_str_within z :
  within_limit z = true -> int_to_str z = inr (pretty z).
Proof. unfold int_to_str. by intros ->. Qed.

Lemma int_to_str_huge z :
  huge <= Z.abs z -> int_to_str z = inl (ValueError int_limit_msg).
Proof.
  intros Hz. unfold int_to_str.
  destruct (within_limit z) eqn:Hw; [|done].
  apply within_limit_spec in Hw. lia.
Qed.

Lemma huge_positive : 0 < huge.
Proof. by apply Z.pow_pos_nonneg. Qed.

Lemma huge_abs : huge <= Z.abs huge.
Proof. pose proof huge_positive. rewrite Z.abs_eq; lia. Qed.

Lemma Rectangle_huge :
  Rectangle (PInt huge) (PInt 1)
  = inr (<["width" := PInt 1]> (<["length" := PInt huge]> ∅)).
Proof.
  apply (Rectangle_positive _ _ huge 1); [done | done | | done].
  apply huge_positive.
Qed.

Lemma huge_attr :
  (<["width" := PInt 1]> (<["length" := PInt huge]> ∅) : gmap string pyval)
    !! "length" = Some (PInt huge).
Proof. by rewrite lookup_insert_ne, lookup_insert_eq. Qed.

(** [repr] on an instance whose [length] is an [int] past the limit. *)
Lemma repr_past_limit float_repr self z :
  self !! "length" = Some (PInt z) -> huge <= Z.abs z ->
  __repr__ float_repr self = (self, inl (ValueError int_limit_msg)).
Proof.
  intros Hlen Hz. rewrite repr_unfold, Hlen. simpl format.
  by rewrite (int_to_str_huge z Hz).
Qed.

Lemma repr_past_limit_raises float_repr self z :
  self !! "length" = Some (PInt z) -> huge <= Z.abs z ->
  (__repr__ float_repr self).2 = inl (ValueError int_limit_msg).
Proof. intros Hlen Hz. by rewrite (repr_past_limit _ _ z Hlen Hz). Qed.

(** ** The scenarios of the specification, evaluated *)

Example scenario_5_3_items :
  to_list 3 (<["width" := PInt 3]> (<["length" := PInt 5]> ∅))
  = (<["width" := PInt 3]> (<["length" := PInt 5]> ∅),
     inr (Some [ {[ "length" := PInt 5 ]}; {[ "width" := PInt 3 ]} ])).
Proof. reflexivity. Qed.

Example scenario_0_3 :
  Rectangle (PInt 0) (PInt 3) = inl (ValueError positive_msg).
Proof. reflexivity. Qed.

(** [3.0] is the float with mantissa 3 and exponent 0. *)
Example scenario_5_float :
  Rectangle (PInt 5) (PFloat (S754_finite false 3 0))
  = inl (TypeError integers_msg).
Proof. reflexivity. Qed.

Example scenario_False_2 :
  Rectangle (PBool false) (PInt 2) = inl (ValueError positive_msg).
Proof. reflexivity. Qed.

(** Without the type check a string would fail in the comparison, with a
    different [TypeError]; with it the comparison is never reached. *)
Example scenario_str :
  le_zero (PStr "5")
  = inl (TypeError "'<=' not supported between instances of 'str' and 'int'")
  /\ Rectangle (PStr "5") (PInt 3) = inl (TypeError integers_msg).
Proof. split; reflexivity. Qed.

(** An [int] field is rendered in decimal, with a sign when negative; a
    [bool] by its name. *)
Example scenario_format float_repr :
  format float_repr (PInt 105) = inr "105" /\
  format float_repr (PInt 0) = inr "0" /\
  format float_repr (PInt (-12)) = inr "-12" /\
  format float_repr (PBool true) = inr "True".
Proof. by split_and!. Qed.

(** An object that never got its attributes cannot be iterated. *)
Example scenario_unset :
  to_list 3 ∅
  = (∅, inl (AttributeError "'Rectangle' object has no attribute 'length'")).
Proof. reflexivity. Qed.

(** A caller's subclass of [int] is judged by its own comparison:
    [Sly(-5)] is accepted, and a subclass whose [__le__] raises makes the
    call raise the same, with nothing stored. *)
Example scenario_Sly :
  Rectangle (Sly (-5)) (PInt 1)
  = inr (<["width" := PInt 1]> (<["length" := Sly (-5)]> ∅)).
Proof. reflexivity. Qed.

Example scenario_subclass_raises :
  __init__
    (PSub {| sub_value := 7;
             sub_le_zero := inl (OtherError "RuntimeError" "no order");
             sub_format := inr "7";
             sub_repr := inr "7" |})
    (PInt 0) ∅
  = (∅, inl (OtherError "RuntimeError" "no order")).
Proof. reflexivity. Qed.

(** Small integers are within the limit of the conversion to text. *)
Example scenario_within_limit :
  int_digits 105 = 3%nat /\ int_digits (-12) = 2%nat /\
  int_to_str (-12) = inr "-12" /\
  print_raises {[ "length" := PInt 5 ]} = None.
Proof. by split_and!. Qed.

(** * The contract of the class *)

(** C1. For all integers [l > 0] and [w > 0] the call [Rectangle(l, w)]
    returns an instance, and iterating that instance ends after exactly two
    items, in this order: the dict [{"length": l}], then the dict
    [{"width": w}].  Any number of [next] calls from three on completes the
    traversal with the same two-element result. *)
Theorem construct_then_iterate (l w : Z) :
  0 < l -> 0 < w ->
  exists self,
    Rectangle (PInt l) (PInt w) = inr self /\
    forall fuel, (3 <= fuel)%nat ->
      to_list fuel self
      = (self,
         inr (Some [ {[ "length" := PInt l ]}; {[ "width" := PInt w ]} ])).
Proof.
  intros Hl Hw.
  pose proof (Rectangle_positive (PInt l) (PInt w) l w eq_refl eq_refl Hl Hw)
    as Hnew.
  eexists. split; [exact Hnew|].
  destruct (Rectangle_attrs _ _ _ Hnew) as [Hlen Hwid].
  intros fuel Hfuel. by apply to_list_both.
Qed.

Lemma construct_then_iterate_5_3 :
  0 < 5 /\ 0 < 3 /\
  exists self,
    Rectangle (PInt 5) (PInt 3) = inr self /\
    forall fuel, (3 <= fuel)%nat ->
      to_list fuel self
      = (self,
         inr (Some [ {[ "length" := PInt 5 ]}; {[ "width" := PInt 3 ]} ])).
Proof. split; [lia|]. split; [lia|]. apply (construct_then_iterate 5 3); lia. Defined.

(** C2. When [length] or [width] is not an [int] instance (a float, a
    string, ...), construction raises the [TypeError] of the type check,
    whatever the sign of either argument: the type check comes before the
    positivity check, so no such input reaches [ValueError]. *)
Theorem non_integer_raises_TypeError (length width : pyval) :
  isinstance_int length = false \/ isinstance_int width = false ->
  Rectangle length width = inl (TypeError integers_msg) /\
  forall self,
    __init__ length width self = (self, inl (TypeError integers_msg)).
Proof.
  intros H. split; [|intros self; by apply init_not_int].
  unfold Rectangle. by rewrite init_not_int.
Qed.

(** [Rectangle(-1.5, 0)]: a negative float next to a non-positive int. *)
Lemma non_integer_raises_TypeError_neg_float :
  (isinstance_int (PFloat (S754_finite true 3 (-1))) = false \/
   isinstance_int (PInt 0) = false) /\
  le_zero (PFloat (S754_finite true 3 (-1))) = inr true /\
  Rectangle (PFloat (S754_finite true 3 (-1))) (PInt 0)
  = inl (TypeError integers_msg) /\
  forall self,
    __init__ (PFloat (S754_finite true 3 (-1))) (PInt 0) self
    = (self, inl (TypeError integers_msg)).
Proof.
  split; [left; reflexivity|]. split; [reflexivity|].
  apply (non_integer_raises_TypeError
           (PFloat (S754_finite true 3 (-1))) (PInt 0)).
  left; reflexivity.
Defined.



(** C4, as the code has it.  Every instance returned by
    [Rectangle(length, width)] on arguments of built-in classes satisfies
    the invariant (both attributes present, [int] instances, strictly
    positive), and so does the instance after any sequence of the class's
    operations: [next] on any generator over it, abandoned and complete
    traversals, and [repr]. *)
Theorem invariant_for_life (length width : pyval) (self : gmap string pyval) :
  builtin length = true -> builtin width = true ->
  lifetime length width self -> invariant self = true.
Proof.
  intros Hbl Hbw Hnew%lifetime_constant.
  destruct (Rectangle_attrs _ _ _ Hnew) as [Hlen Hwid].
  destruct (Rectangle_builtin_positive _ _ _ Hbl Hbw Hnew) as [Hl Hw].
  by apply (invariant_both _ length width).
Qed.

Lemma used_5_3_lifetime : lifetime (PInt 5) (PInt 3) used_5_3.
Proof. do 3 apply lives. apply born. reflexivity. Defined.

Lemma invariant_for_life_5_3 :
  builtin (PInt 5) = true /\ builtin (PInt 3) = true /\
  lifetime (PInt 5) (PInt 3) used_5_3 /\ invariant used_5_3 = true.
Proof.
  split; [reflexivity|]. split; [reflexivity|].
  split; [exact used_5_3_lifetime|].
  apply (invariant_for_life (PInt 5) (PInt 3));
    [reflexivity | reflexivity | exact used_5_3_lifetime].
Defined.

(** C4 as stated fails: [Rectangle(Sly(-5), 1)] returns an instance,
    because [Sly(-5)] is an [int] instance that answers [False] to
    [<= 0], and the [length] of that instance is the integer -5. *)
Lemma invariant_broken_by_subclass :
  isinstance_int (Sly (-5)) = true /\
  int_value (Sly (-5)) = Some (-5) /\
  lifetime (Sly (-5)) (PInt 1)
    (<["width" := PInt 1]> (<["length" := Sly (-5)]> ∅)) /\
  invariant (<["width" := PInt 1]> (<["length" := Sly (-5)]> ∅)) = false.
Proof.
  split; [reflexivity|]. split; [reflexivity|].
  split; [apply born; reflexivity | reflexivity].
Qed.

(** C5. Iteration is restartable: two traversals of the same constructed
    instance, one after the other, each produce the same two dicts in the
    same order. *)
Theorem iteration_restartable (length width : pyval)
    (self : gmap string pyval) (fuel1 fuel2 : nat) :
  Rectangle length width = inr self ->
  (3 <= fuel1)%nat -> (3 <= fuel2)%nat ->
  (first ← to_list fuel1; second ← to_list fuel2; mret (first, second)) self
  = (self,
     inr (Some [ {[ "length" := length ]}; {[ "width" := width ]} ],
          Some [ {[ "length" := length ]}; {[ "width" := width ]} ])).
Proof.
  intros [Hlen Hwid]%Rectangle_attrs H1 H2.
  unfold mbind, M_bind.
  rewrite (to_list_both self length width Hlen Hwid fuel1 H1).
  by rewrite (to_list_both self length width Hlen Hwid fuel2 H2).
Qed.

Lemma iteration_restartable_5_3 :
  Rectangle (PInt 5) (PInt 3)
  = inr (<["width" := PInt 3]> (<["length" := PInt 5]> ∅)) /\
  (first ← to_list 3; second ← to_list 4; mret (first, second))
    (<["width" := PInt 3]> (<["length" := PInt 5]> ∅))
  = (<["width" := PInt 3]> (<["length" := PInt 5]> ∅),
     inr (Some [ {[ "length" := PInt 5 ]}; {[ "width" := PInt 3 ]} ],
          Some [ {[ "length" := PInt 5 ]}; {[ "width" := PInt 3 ]} ])).
Proof.
  split; [reflexivity|].
  apply (iteration_restartable (PInt 5) (PInt 3)); [reflexivity | lia | lia].
Defined.

(** C6, as the code has it.  On an instance constructed from [length] and
    [width], when each of the two values has a text as an f-string field,
    [repr] is [Rectangle(length=<length>, width=<width>)] with these
    texts; an [int] of at most 4300 digits has one, its decimal digits;
    for [Rectangle(5, 3)] the result is ["Rectangle(length=5, width=3)"]. *)
Theorem repr_shows_dimensions (float_repr : spec_float -> string)
    (length width : pyval) (self : gmap string pyval) :
  Rectangle length width = inr self ->
  (forall a b,
     format float_repr length = inr a -> format float_repr width = inr b ->
     __repr__ float_repr self
     = (self,
        inr ("Rectangle(length=" +:+ a +:+ ", width=" +:+ b +:+ ")"))) /\
  (forall l w : Z, length = PInt l -> width = PInt w ->
     within_limit l = true -> within_limit w = true ->
     __repr__ float_repr self
     = (self,
        inr ("Rectangle(length=" +:+ pretty l +:+ ", width=" +:+ pretty w
             +:+ ")"))) /\
  (length = PInt 5 -> width = PInt 3 ->
     __repr__ float_repr self = (self, inr "Rectangle(length=5, width=3)")).
Proof.
  intros [Hlen Hwid]%Rectangle_attrs.
  pose proof (repr_both self length width Hlen Hwid float_repr) as Hrepr.
  split_and!.
  - intros a b. apply Hrepr.
  - intros l w -> -> Hl Hw. apply Hrepr; by apply int_to_str_within.
  - intros -> ->. by apply (Hrepr "5" "3").
Qed.

Lemma repr_shows_dimensions_5_3 :
  Rectangle (PInt 5) (PInt 3)
  = inr (<["width" := PInt 3]> (<["length" := PInt 5]> ∅)) /\
  __repr__ (fun _ => "") (<["width" := PInt 3]> (<["length" := PInt 5]> ∅))
  = (<["width" := PInt 3]> (<["length" := PInt 5]> ∅),
     inr "Rectangle(length=5, width=3)").
Proof.
  split; [reflexivity|].
  apply (repr_shows_dimensions (fun _ => "") (PInt 5) (PInt 3));
    reflexivity.
Defined.

(** C6 as stated fails: [Rectangle(10 ** 4300, 1)] is constructed, and its
    [repr] raises [ValueError] instead of returning a text. *)
Lemma repr_raises_past_limit :
  Rectangle (PInt huge) (PInt 1)
  = inr (<["width" := PInt 1]> (<["length" := PInt huge]> ∅)) /\
  __repr__ (fun _ => "") (<["width" := PInt 1]> (<["length" := PInt huge]> ∅))
  = (<["width" := PInt 1]> (<["length" := PInt huge]> ∅),
     inl (ValueError int_limit_msg)).
Proof.
  split; [exact Rectangle_huge|].
  apply (repr_past_limit _ _ huge); [apply huge_attr | apply huge_abs].
Qed.

(** C7. Iteration does not mutate the instance: after a traversal
    abandoned at any point ([n] calls of [next], for every [n]) and after a
    complete traversal, the instance is the one constructed, with
    [length] and [width] holding the values they held before. *)
Theorem iteration_does_not_mutate (length width : pyval)
    (self : gmap string pyval) :
  Rectangle length width = inr self ->
  (forall n g,
     (advance n g self).1 = self /\
     (advance n g self).1 !! "length" = Some length /\
     (advance n g self).1 !! "width" = Some width) /\
  (forall fuel,
     (to_list fuel self).1 = self /\
     (to_list fuel self).1 !! "length" = Some length /\
     (to_list fuel self).1 !! "width" = Some width).
Proof.
  intros [Hlen Hwid]%Rectangle_attrs. split.
  - intros n g. by rewrite advance_reads.
  - intros fuel. unfold to_list. by rewrite drain_reads.
Qed.

Lemma iteration_does_not_mutate_5_3 :
  Rectangle (PInt 5) (PInt 3)
  = inr (<["width" := PInt 3]> (<["length" := PInt 5]> ∅)) /\
  (advance 1 __iter__ (<["width" := PInt 3]> (<["length" := PInt 5]> ∅))).1
  = <["width" := PInt 3]> (<["length" := PInt 5]> ∅).
Proof.
  split; [reflexivity|].
  apply (iteration_does_not_mutate (PInt 5) (PInt 3)). reflexivity.
Defined.

(** C8. Construction is all or nothing.  On two strictly positive integers
    [__init__] returns, having bound [length] and [width] to the two
    values supplied, and the call returns the instance with exactly these
    two attributes.  Whenever [__init__] returns, this is what it has
    done, and nothing else.  Whenever it raises, the call raises the same
    exception instead of returning an instance, and the attribute
    dictionary is as it was: no attribute has been set, none got a
    default; on arguments of built-in classes the exception is the one of
    the failed check. *)
Theorem construction_all_or_nothing (length width : pyval)
    (before : gmap string pyval) :
  (forall a b : Z,
     plain_int length = Some a -> plain_int width = Some b ->
     0 < a -> 0 < b ->
     __init__ length width before
     = (<["width" := width]> (<["length" := length]> before), inr tt) /\
     Rectangle length width
     = inr (<["width" := width]> (<["length" := length]> ∅))) /\
  match __init__ length width before with
  | (self, inr _) =>
      self = <["width" := width]> (<["length" := length]> before) /\
      self !! "length" = Some length /\
      self !! "width" = Some width /\
      dom self = {[ "length"; "width" ]} ∪ dom before /\
      Rectangle length width
      = inr (<["width" := width]> (<["length" := length]> ∅))
  | (self, inl e) =>
      self = before /\
      Rectangle length width = inl e /\
      (builtin length = true -> builtin width = true ->
       e = TypeError integers_msg \/ e = ValueError positive_msg)
  end.
Proof.
  split.
  - intros a b Ha Hb Hpa Hpb.
    split; [by apply (init_positive _ _ a b)
           | by apply (Rectangle_positive _ _ a b)].
  - pose proof (init_as_Rectangle length width before) as Hinit.
    destruct (Rectangle length width) as [e|fresh] eqn:Hnew.
    + rewrite Hinit. split_and!; [done..|].
      intros Hbl Hbw.
      destruct (Rectangle_cases length width Hbl Hbw)
        as [[_ HT] | [(a & b & _ & _ & _ & HV) | (a & b & _ & _ & _ & _ & HR)]];
        [left | right |]; congruence.
    + rewrite Hinit. apply Rectangle_stores in Hnew as ->.
      split_and!; [done | | | | done].
      * by rewrite lookup_insert_ne, lookup_insert_eq.
      * by rewrite lookup_insert_eq.
      * rewrite !dom_insert_L, (assoc_L (∪)).
        by rewrite (comm_L (∪) {[ "width" ]}).
Qed.

Lemma construction_all_or_nothing_5_3 :
  plain_int (PInt 5) = Some 5 /\ plain_int (PInt 3) = Some 3 /\
  0 < 5 /\ 0 < 3 /\
  __init__ (PInt 5) (PInt 3) ∅
  = (<["width" := PInt 3]> (<["length" := PInt 5]> ∅), inr tt) /\
  Rectangle (PInt 5) (PInt 3)
  = inr (<["width" := PInt 3]> (<["length" := PInt 5]> ∅)).
Proof.
  split; [reflexivity|]. split; [reflexivity|]. split; [lia|]. split; [lia|].
  apply (proj1 (construction_all_or_nothing (PInt 5) (PInt 3) ∅) 5 3);
    [reflexivity | reflexivity | lia | lia].
Defined.

(** C9, as the code has it.  On a constructed instance, at any point of
    its life, [next] on a generator in any state returns (an item or the
    end of the iteration), traversals abandoned anywhere or run to the end
    return, three calls of [next] being enough to finish; [repr] returns a
    string when each of the two values has a text as an f-string field, as
    an [int] of at most 4300 digits has, and otherwise raises what the
    conversion of the value raises. *)
Theorem operations_never_raise (float_repr : spec_float -> string)
    (length width : pyval) (self : gmap string pyval) :
  lifetime length width self ->
  (forall g, exists r, next g self = (self, inr r)) /\
  (forall n g, exists g', advance n g self = (self, inr g')) /\
  (forall fuel g, exists r, drain fuel g self = (self, inr r)) /\
  (forall fuel, (3 <= fuel)%nat ->
     exists items, to_list fuel self = (self, inr (Some items))) /\
  (forall a b,
     format float_repr length = inr a -> format float_repr width = inr b ->
     exists text, __repr__ float_repr self = (self, inr text)) /\
  (forall l w : Z, length = PInt l -> width = PInt w ->
     within_limit l = true -> within_limit w = true ->
     exists text, __repr__ float_repr self = (self, inr text)) /\
  (forall e,
     (__repr__ float_repr self).2 = inl e ->
     format float_repr length = inl e \/ format float_repr width = inl e).
Proof.
  intros [Hlen Hwid]%lifetime_constant%Rectangle_attrs. split_and!.
  - intros g. by apply (next_returns self length width).
  - intros n g. by apply (advance_returns self length width).
  - intros fuel g. by apply (drain_returns self length width).
  - intros fuel Hfuel. eexists. by apply (to_list_both self length width).
  - intros a b Ha Hb. eexists. by apply (repr_both self length width).
  - intros l w -> -> Hl Hw. eexists.
    apply (repr_both self (PInt l) (PInt w)); [done..| |];
      by apply int_to_str_within.
  - intros e. rewrite repr_unfold, Hlen, Hwid.
    destruct (format float_repr length) as [e1|a]; [by intros [= ->]; left|].
    destruct (format float_repr width) as [e2|b]; [by intros [= ->]; right|].
    discriminate.
Qed.

Lemma operations_never_raise_5_3 :
  lifetime (PInt 5) (PInt 3) used_5_3 /\
  (exists r, next AfterLength used_5_3 = (used_5_3, inr r)) /\
  (exists text, __repr__ (fun _ => "") used_5_3 = (used_5_3, inr text)).
Proof.
  split; [exact used_5_3_lifetime|].
  destruct (operations_never_raise (fun _ => "") (PInt 5) (PInt 3) used_5_3
              used_5_3_lifetime) as (Hnext & _ & _ & _ & _ & Hrepr & _).
  split; [apply Hnext | apply (Hrepr 5 3); reflexivity].
Defined.

(** C9 as stated fails: on the constructed [Rectangle(10 ** 4300, 1)],
    [repr] raises [ValueError]. *)
Lemma repr_raises_on_constructed :
  lifetime (PInt huge) (PInt 1)
    (<["width" := PInt 1]> (<["length" := PInt huge]> ∅)) /\
  (__repr__ (fun _ => "")
     (<["width" := PInt 1]> (<["length" := PInt huge]> ∅))).2
  = inl (ValueError int_limit_msg).
Proof.
  split; [apply born; exact Rectangle_huge|].
  exact (repr_past_limit_raises _ _ huge huge_attr huge_abs).
Qed.

(** C10. [bool] is a subclass of [int], so [True] passes the type check;
    it compares as the integer 1, so it passes the positivity check too:
    [Rectangle(True, 2)] returns an instance, whose [length] is [True],
    instead of raising [TypeError]. *)
Theorem bool_is_accepted :
  isinstance_int (PBool true) = true /\
  int_value (PBool true) = Some 1 /\
  le_zero (PBool true) = inr false /\
  Rectangle (PBool true) (PInt 2)
  = inr (<["width" := PInt 2]> (<["length" := PBool true]> ∅)) /\
  Rectangle (PBool true) (PInt 2) <> inl (TypeError integers_msg).
Proof.
  assert (Rectangle (PBool true) (PInt 2)
          = inr (<["width" := PInt 2]> (<["length" := PBool true]> ∅))) as H
    by by apply (Rectangle_positive _ _ 1 2).
  split_and!; [done..|]. by rewrite H.
Qed.

(** * Further properties *)

Local Open Scope list_scope.

(** ** Construction *)

(** X1. On arguments of built-in classes, a call returns an instance
    exactly when both arguments are [int] instances of strictly positive
    value, and the instance then holds these two arguments. *)
Theorem construction_succeeds_iff (length width : pyval)
    (self : gmap string pyval) :
  builtin length = true -> builtin width = true ->
  (Rectangle length width = inr self <->
   exists a b,
     int_value length = Some a /\ int_value width = Some b /\
     0 < a /\ 0 < b /\
     self = <["width" := width]> (<["length" := length]> ∅)).
Proof.
  intros Hbl Hbw. split.
  - intros H.
    destruct (Rectangle_cases length width Hbl Hbw)
      as [[_ HT] | [(a & b & _ & _ & _ & HV) | (a & b & Ha & Hb & ? & ? & HR)]];
      [congruence.. |].
    apply plain_int_value in Ha as [Ha _].
    apply plain_int_value in Hb as [Hb _].
    exists a, b. split_and!; [done..|congruence].
  - intros (a & b & Ha & Hb & Hpa & Hpb & ->).
    rewrite <- builtin_plain_int in Ha, Hb by done.
    by apply (Rectangle_positive _ _ a b).
Qed.

Lemma construction_succeeds_iff_5_3 :
  builtin (PInt 5) = true /\ builtin (PInt 3) = true /\
  (Rectangle (PInt 5) (PInt 3)
   = inr (<["width" := PInt 3]> (<["length" := PInt 5]> ∅)) <->
   exists a b,
     int_value (PInt 5) = Some a /\ int_value (PInt 3) = Some b /\
     0 < a /\ 0 < b /\
     (<["width" := PInt 3]> (<["length" := PInt 5]> ∅) : gmap string pyval)
     = <["width" := PInt 3]> (<["length" := PInt 5]> ∅)).
Proof.
  split; [reflexivity|]. split; [reflexivity|].
  apply (construction_succeeds_iff (PInt 5) (PInt 3)); reflexivity.
Defined.

(** X2. On arguments of built-in classes the exception tells the cause:
    the call raises the type check's [TypeError] exactly when an argument
    is not an [int] instance, and the [ValueError] exactly when both are
    [int] instances and one has a value [<= 0]. *)
Theorem exception_tells_cause (length width : pyval) :
  builtin length = true -> builtin width = true ->
  (Rectangle length width = inl (TypeError integers_msg) <->
   isinstance_int length = false \/ isinstance_int width = false) /\
  (Rectangle length width = inl (ValueError positive_msg) <->
   exists a b,
     int_value length = Some a /\ int_value width = Some b /\
     (a <= 0 \/ b <= 0)).
Proof.
  intros Hbl Hbw.
  destruct (Rectangle_cases length width Hbl Hbw)
    as [[Hty HT] | [(a & b & Ha & Hb & Hle & HV)
                   | (a & b & Ha & Hb & ? & ? & HR)]].
  - split; [done|]. rewrite HT. split; [discriminate|].
    intros (a & b & Ha & Hb & _).
    destruct Hty as [Hty|Hty]; apply isinstance_int_value in Hty; congruence.
  - apply plain_int_value in Ha as [Ha _].
    apply plain_int_value in Hb as [Hb _].
    split; [|split; [eauto 10 | done]]. rewrite HV. split; [discriminate|].
    intros [Hty|Hty]; apply isinstance_int_value in Hty; congruence.
  - apply plain_int_value in Ha as [Ha _].
    apply plain_int_value in Hb as [Hb _].
    rewrite HR. split; (split; [discriminate|]).
    + intros [Hty|Hty]; apply isinstance_int_value in Hty; congruence.
    + intros (a' & b' & Ha' & Hb' & Hle).
      assert (a' = a) by congruence. assert (b' = b) by congruence. lia.
Qed.

Lemma exception_tells_cause_0_3 :
  builtin (PInt 0) = true /\ builtin (PInt 3) = true /\
  (Rectangle (PInt 0) (PInt 3) = inl (ValueError positive_msg) <->
   exists a b,
     int_value (PInt 0) = Some a /\ int_value (PInt 3) = Some b /\
     (a <= 0 \/ b <= 0)).
Proof.
  split; [reflexivity|]. split; [reflexivity|].
  apply (exception_tells_cause (PInt 0) (PInt 3)); reflexivity.
Defined.

(** X3. Calling [__init__] again on a constructed instance: with arguments
    a fresh call accepts, the instance becomes exactly the one that fresh
    call returns, nothing of the old dimensions remaining; with arguments
    a fresh call rejects, the same exception is raised and the instance
    keeps its dimensions. *)
Theorem reinitialisation (length width length' width' : pyval)
    (self : gmap string pyval) :
  Rectangle length width = inr self ->
  match Rectangle length' width' with
  | inr self' => __init__ length' width' self = (self', inr tt)
  | inl e => __init__ length' width' self = (self, inl e)
  end.
Proof.
  intros ->%Rectangle_stores.
  pose proof (init_as_Rectangle length' width'
                (<["width" := width]> (<["length" := length]> ∅))) as Hinit.
  destruct (Rectangle length' width') as [e|self'] eqn:Hnew; [done|].
  apply Rectangle_stores in Hnew as ->.
  rewrite Hinit.
  assert (<["width" := width']> (<["length" := length']>
            (<["width" := width]> (<["length" := length]> ∅)))
          = <["width" := width']> (<["length" := length']> ∅)
            :> gmap string pyval) as ->; [|done].
  apply map_eq. intros k. rewrite !lookup_insert. by repeat case_decide.
Qed.

Lemma reinitialisation_5_3_then_2_7 :
  (Rectangle (PInt 5) (PInt 3)
   = inr (<["width" := PInt 3]> (<["length" := PInt 5]> ∅))) /\
  (__init__ (PInt 2) (PInt 7)
     (<["width" := PInt 3]> (<["length" := PInt 5]> ∅))
   = (<["width" := PInt 7]> (<["length" := PInt 2]> ∅), inr tt)).
Proof.
  split; [reflexivity|].
  apply (reinitialisation (PInt 5) (PInt 3) (PInt 2) (PInt 7)). reflexivity.
Defined.

(** ** Iteration *)

Section Cursor.

Variables (self : gmap string pyval) (l w : pyval).
Hypothesis Hlength : self !! "length" = Some l.
Hypothesis Hwidth : self !! "width" = Some w.

Lemma advance_exhausted n : advance n Exhausted self = (self, inr Exhausted).
Proof. induction n as [|n IH]; [done|]. simpl. by unfold mbind, M_bind. Qed.

Lemma advance_step n g r :
  next g self = (self, inr r) -> advance (S n) g self = advance n r.2 self.
Proof. intros H. simpl. unfold mbind, M_bind. by rewrite H. Qed.

Lemma advance_from_start n :
  advance n __iter__ self = (self, inr (frame_after n)).
Proof.
  unfold __iter__.
  destruct n as [|n]; [done|].
  rewrite (advance_step _ _ _ (next_at_start self l Hlength)).
  destruct n as [|n]; [done|].
  rewrite (advance_step _ _ _ (next_after_length self w Hwidth)).
  destruct n as [|n]; [done|].
  rewrite (advance_step _ _ _ (next_after_width self)).
  apply advance_exhausted.
Qed.

(** What is left for a generator that has been advanced [n] times. *)
Lemma drain_frame_after n fuel :
  (3 <= fuel)%nat ->
  drain fuel (frame_after n) self
  = (self, inr (Some (drop n [ {[ "length" := l ]}; {[ "width" := w ]} ]))).
Proof.
  intros Hfuel. destruct fuel as [|[|[|fuel]]]; [lia..|].
  destruct n as [|[|[|n]]]; simpl frame_after; simpl drop.
  - exact (to_list_both self l w Hlength Hwidth _ Hfuel).
  - eapply (drain_item _ _ _ _ (Some [])); [by apply next_after_length|].
    eapply drain_stop, next_after_width.
  - eapply drain_stop, next_after_width.
  - eapply drain_stop, next_exhausted.
Qed.

End Cursor.

(** X4. A generator is a cursor used once: after [n] calls of [next] on a
    generator of a constructed instance, running it to the end gives the
    items from position [n] on, so both items for [n = 0], the width item
    alone for [n = 1], and nothing at all once two items were taken,
    however often it is asked again. *)
Theorem resumed_traversal_gives_rest (length width : pyval)
    (self : gmap string pyval) (n fuel : nat) :
  Rectangle length width = inr self ->
  (3 <= fuel)%nat ->
  (g ← advance n __iter__; drain fuel g) self
  = (self,
     inr (Some (drop n [ {[ "length" := length ]}; {[ "width" := width ]} ]))).
Proof.
  intros [Hlen Hwid]%Rectangle_attrs Hfuel.
  unfold mbind, M_bind.
  rewrite (advance_from_start self length width Hlen Hwid).
  by apply drain_frame_after.
Qed.

Lemma resumed_traversal_gives_rest_5_3 :
  (Rectangle (PInt 5) (PInt 3)
   = inr (<["width" := PInt 3]> (<["length" := PInt 5]> ∅))) /\
  (3 <= 3)%nat /\
  ((g ← advance 1 __iter__; drain 3 g)
     (<["width" := PInt 3]> (<["length" := PInt 5]> ∅))
   = (<["width" := PInt 3]> (<["length" := PInt 5]> ∅),
      inr (Some [ {[ "width" := PInt 3 ]} ]))).
Proof.
  split; [reflexivity|]. split; [lia|].
  apply (resumed_traversal_gives_rest (PInt 5) (PInt 3) _ 1 3);
    [reflexivity | lia].
Defined.

(** X5. Traversals of one instance do not share a cursor: a complete
    traversal made while another generator is suspended after [n] items
    gets both items, and the suspended generator then goes on with the
    items from position [n] on. *)
Theorem traversals_are_independent (length width : pyval)
    (self : gmap string pyval) (n fuel : nat) :
  Rectangle length width = inr self ->
  (3 <= fuel)%nat ->
  (outer ← advance n __iter__;
   inner ← to_list fuel;
   rest ← drain fuel outer;
   mret (inner, rest)) self
  = (self,
     inr (Some [ {[ "length" := length ]}; {[ "width" := width ]} ],
          Some (drop n [ {[ "length" := length ]}; {[ "width" := width ]} ]))).
Proof.
  intros [Hlen Hwid]%Rectangle_attrs Hfuel.
  unfold mbind, M_bind.
  rewrite (advance_from_start self length width Hlen Hwid).
  rewrite (to_list_both self length width Hlen Hwid fuel Hfuel).
  by rewrite (drain_frame_after self length width Hlen Hwid n fuel Hfuel).
Qed.

Lemma traversals_are_independent_5_3 :
  (Rectangle (PInt 5) (PInt 3)
   = inr (<["width" := PInt 3]> (<["length" := PInt 5]> ∅))) /\
  (3 <= 3)%nat /\
  ((outer ← advance 1 __iter__;
    inner ← to_list 3;
    rest ← drain 3 outer;
    mret (inner, rest)) (<["width" := PInt 3]> (<["length" := PInt 5]> ∅))
   = (<["width" := PInt 3]> (<["length" := PInt 5]> ∅),
      inr (Some [ {[ "length" := PInt 5 ]}; {[ "width" := PInt 3 ]} ],
           Some [ {[ "width" := PInt 3 ]} ]))).
Proof.
  split; [reflexivity|]. split; [lia|].
  apply (traversals_are_independent (PInt 5) (PInt 3) _ 1 3);
    [reflexivity | lia].
Defined.

(** X6. Each attribute is read when its item is asked for, not when the
    iteration starts: if [width] is assigned between the first and the
    second [next], the second item carries the new value.  The first item
    needs [length] only. *)
Theorem items_are_read_lazily (self : gmap string pyval) (l v : pyval) :
  self !! "length" = Some l ->
  (first ← next __iter__;
   _ ← setattr "width" v;
   second ← next first.2;
   mret (first.1, second.1)) self
  = (<["width" := v]> self,
     inr (Some {[ "length" := l ]}, Some {[ "width" := v ]})).
Proof.
  intros Hlen. unfold mbind, M_bind, __iter__.
  rewrite (next_at_start self l Hlen). unfold setattr. simpl fst. simpl snd.
  by rewrite (next_after_length (<["width" := v]> self) v)
    by apply lookup_insert_eq.
Qed.

Lemma items_are_read_lazily_5_3 :
  (<["width" := PInt 3]> (<["length" := PInt 5]> ∅) : gmap string pyval)
    !! "length" = Some (PInt 5) /\
  ((first ← next __iter__;
    _ ← setattr "width" (PInt 8);
    second ← next first.2;
    mret (first.1, second.1))
     (<["width" := PInt 3]> (<["length" := PInt 5]> ∅))
   = (<["width" := PInt 8]>
        (<["width" := PInt 3]> (<["length" := PInt 5]> ∅)),
      inr (Some {[ "length" := PInt 5 ]}, Some {[ "width" := PInt 8 ]}))).
Proof.
  split; [reflexivity|].
  apply (items_are_read_lazily _ (PInt 5) (PInt 8)). reflexivity.
Defined.

(** X7. The items carry everything the instance holds: merging the two
    dicts of a traversal gives the attribute dictionary of the instance,
    the values under ["length"] and ["width"] are the two arguments of the
    construction, and, these being of built-in classes, a new call of
    [Rectangle] on them returns an instance with the same attribute
    dictionary (another object, with equal attributes). *)
Theorem items_rebuild_instance (length width : pyval)
    (self : gmap string pyval) (fuel : nat) :
  Rectangle length width = inr self ->
  (3 <= fuel)%nat ->
  exists first second : gmap string pyval,
    to_list fuel self = (self, inr (Some [first; second])) /\
    first ∪ second = self /\
    first !! "length" = Some length /\ second !! "width" = Some width /\
    (builtin length = true -> builtin width = true ->
     forall l w,
       first !! "length" = Some l -> second !! "width" = Some w ->
       Rectangle l w = inr self).
Proof.
  intros Hnew Hfuel.
  destruct (Rectangle_attrs _ _ _ Hnew) as [Hlen Hwid].
  exists {[ "length" := length ]}, {[ "width" := width ]}.
  split; [by apply to_list_both|]. split_and!.
  - apply Rectangle_stores in Hnew as ->.
    apply map_eq. intros k.
    rewrite lookup_union, !lookup_insert, !lookup_singleton, lookup_empty.
    repeat case_decide; simplify_eq; done.
  - by rewrite lookup_singleton_eq.
  - by rewrite lookup_singleton_eq.
  - intros _ _ l w. rewrite !lookup_singleton_eq. by intros [= <-] [= <-].
Qed.

Lemma items_rebuild_instance_5_3 :
  (Rectangle (PInt 5) (PInt 3)
   = inr (<["width" := PInt 3]> (<["length" := PInt 5]> ∅))) /\
  (3 <= 3)%nat /\
  exists first second : gmap string pyval,
    to_list 3 (<["width" := PInt 3]> (<["length" := PInt 5]> ∅))
    = (<["width" := PInt 3]> (<["length" := PInt 5]> ∅),
       inr (Some [first; second])) /\
    first ∪ second = <["width" := PInt 3]> (<["length" := PInt 5]> ∅) /\
    first !! "length" = Some (PInt 5) /\ second !! "width" = Some (PInt 3).
Proof.
  split; [reflexivity|]. split; [lia|].
  destruct (items_rebuild_instance (PInt 5) (PInt 3)
              (<["width" := PInt 3]> (<["length" := PInt 5]> ∅)) 3
              eq_refl (le_n 3))
    as (first & second & Hlist & Hunion & Hl & Hw & _).
  by exists first, second.
Defined.

(** ** Failures after construction *)

(** Settles [result = inl e <-> case \/ case] once the result is known. *)
Local Ltac raise_cases :=
  split;
    [ intros Hraise;
      first [ discriminate Hraise
            | injection Hraise as <-;
              first [ left; by split_and! | right; by split_and! ] ]
    | intros [Hcase | (? & ? & ->)];
      [ first [ destruct Hcase as (? & ? & ->) | destruct Hcase as (? & ->) ]
      | ];
      first [ done | congruence ] ].

(** X8. What makes [next] and [repr] fail, on any instance.  [next]
    raises exactly when the attribute its next [yield] reads is absent,
    with the [AttributeError] naming it.  [repr] reads and converts
    [length], then reads and converts [width], and raises at the first of
    these four steps that fails: the [AttributeError] naming an absent
    attribute, or what the conversion of the value raises. *)
Theorem raises_iff_attribute_missing (float_repr : spec_float -> string)
    (self : gmap string pyval) :
  (forall g e,
     (next g self).2 = inl e <->
     (g = AtStart /\ self !! "length" = None /\
      e = AttributeError "'Rectangle' object has no attribute 'length'") \/
     (g = AfterLength /\ self !! "width" = None /\
      e = AttributeError "'Rectangle' object has no attribute 'width'")) /\
  (forall e,
     (__repr__ float_repr self).2 = inl e <->
     (self !! "length" = None /\
      e = AttributeError "'Rectangle' object has no attribute 'length'") \/
     (exists l, self !! "length" = Some l /\ format float_repr l = inl e) \/
     (exists l a,
        self !! "length" = Some l /\ format float_repr l = inr a /\
        self !! "width" = None /\
        e = AttributeError "'Rectangle' object has no attribute 'width'") \/
     (exists l a w,
        self !! "length" = Some l /\ format float_repr l = inr a /\
        self !! "width" = Some w /\ format float_repr w = inl e)).
Proof.
  split.
  - intros g e. destruct g; simpl; unfold mbind, M_bind, getattr.
    + destruct (self !! "length"); simpl; raise_cases.
    + destruct (self !! "width"); simpl; raise_cases.
    + simpl. raise_cases.
    + simpl. raise_cases.
  - intros e. rewrite repr_unfold.
    destruct (self !! "length") as [l|] eqn:Hl.
    2:{ simpl. split.
        - intros [= <-]. by left.
        - intros [[_ ->] | [(? & [=] & _) | [(? & ? & [=] & _)
                                            | (? & ? & ? & [=] & _)]]].
          done. }
    destruct (format float_repr l) as [e1|a] eqn:Ha.
    { simpl. split.
      - intros [= <-]. right; left. eauto.
      - intros [[[=] _] | [(? & [= <-] & He) | [(? & ? & [= <-] & He & _)
                                               | (? & ? & ? & [= <-] & He & _)]]];
          congruence. }
    destruct (self !! "width") as [w|] eqn:Hw.
    2:{ simpl. split.
        - intros [= <-]. right; right; left. eauto 10.
        - intros [[[=] _] | [(? & [= <-] & He) | [(? & ? & _ & _ & _ & ->)
                                                 | (? & ? & ? & _ & _ & [=] & _)]]];
            [congruence | done]. }
    destruct (format float_repr w) as [e2|b] eqn:Hb; simpl.
    + split.
      * intros [= <-]. right; right; right. eauto 10.
      * intros [[[=] _] | [(? & [= <-] & He) | [(? & ? & _ & _ & [=] & _)
                                               | (? & ? & ? & _ & _ & [= <-] & He)]]];
          congruence.
    + split; [discriminate|].
      intros [[[=] _] | [(? & [= <-] & He) | [(? & ? & _ & _ & [=] & _)
                                              | (? & ? & ? & _ & _ & [= <-] & He)]]];
        congruence.
Qed.

(** ** The loop of the module *)

Lemma drain_unfold fuel g self :
  drain (S fuel) g self
  = match next g self with
    | (self', inl e) => (self', inl e)
    | (self', inr (None, _)) => (self', inr (Some []))
    | (self', inr (Some item, g')) =>
        match drain fuel g' self' with
        | (self'', inl e) => (self'', inl e)
        | (self'', inr rest) => (self'', inr (cons item <$> rest))
        end
    end.
Proof.
  simpl. unfold mbind at 1, M_bind at 1.
  by destruct (next g self) as [self' [e|[[item|] g']]].
Qed.

Lemma for_print_unfold fuel g self out :
  for_print (S fuel) g self out
  = match next g self with
    | (self', inl e) => Some (self', out, inl e)
    | (self', inr (None, _)) => Some (self', out, inr tt)
    | (self', inr (Some item, g')) =>
        match print_raises item with
        | Some e => Some (self', out, inl e)
        | None => for_print fuel g' self' (out ++ [item])
        end
    end.
Proof. done. Qed.

Lemma print_raises_singleton (k : string) (v : pyval) :
  print_raises {[ k := v ]} = repr_raises v.
Proof.
  unfold print_raises. rewrite map_to_list_singleton. simpl.
  by destruct (repr_raises v).
Qed.

Lemma print_items_all items :
  forall out,
    Forall (fun item => print_raises item = None) items ->
    print_items items out = (out ++ items, inr tt).
Proof.
  induction items as [|item items IH]; intros out Hall; simpl.
  - by rewrite app_nil_r.
  - inversion Hall as [|?? Hitem Hrest]; subst.
    by rewrite Hitem, IH, <- app_assoc.
Qed.

Lemma for_print_follows_drain (fuel : nat) :
  forall (g : frame) (self : gmap string pyval)
         (out : list (gmap string pyval)),
    match drain fuel g self with
    | (self', inr (Some items)) =>
        for_print fuel g self out
        = Some (self', (print_items items out).1, (print_items items out).2)
    | (self', inr None) =>
        for_print fuel g self out = None \/
        exists printed e',
          for_print fuel g self out = Some (self', out ++ printed, inl e')
    | (self', inl e) =>
        exists printed e',
          for_print fuel g self out = Some (self', out ++ printed, inl e')
    end.
Proof.
  induction fuel as [|fuel IH]; intros g self out; [by left|].
  rewrite drain_unfold, for_print_unfold.
  destruct (next g self) as [self' [e|[[item|] g']]].
  - exists [], e. by rewrite app_nil_r.
  - specialize (IH g' self' (out ++ [item])).
    pose proof (drain_reads fuel g' self') as Hsame.
    destruct (print_raises item) as [pe|] eqn:Hitem.
    + destruct (drain fuel g' self') as [self'' [e|[items|]]];
        simpl in *; subst self''.
      * exists [], pe. by rewrite app_nil_r.
      * by rewrite Hitem.
      * right. exists [], pe. by rewrite app_nil_r.
    + destruct (drain fuel g' self') as [self'' [e|[items|]]]; simpl.
      * destruct IH as (printed & e' & ->). exists (item :: printed), e'.
        by rewrite <- app_assoc.
      * by rewrite Hitem.
      * destruct IH as [-> | (printed & e' & ->)]; [by left|].
        right. exists (item :: printed), e'. by rewrite <- app_assoc.
  - done.
Qed.

(** X9. The printing loop against [list], for every instance and every
    generator state.  When [list] returns the items, the loop does what
    printing these items one after the other does: it prints them in
    order after the earlier output, up to the first one whose text cannot
    be produced, and ends normally if there is none.  When [list] raises,
    the loop raises too, possibly after printing some items.  The loop
    runs out of [next] calls only if [list] does. *)
Theorem loop_prints_the_list (fuel : nat) (g : frame)
    (self : gmap string pyval) (out : list (gmap string pyval)) :
  (forall self' items,
     drain fuel g self = (self', inr (Some items)) ->
     for_print fuel g self out
     = Some (self', (print_items items out).1, (print_items items out).2) /\
     (Forall (fun item => print_raises item = None) items ->
      for_print fuel g self out = Some (self', out ++ items, inr tt))) /\
  (forall self' e,
     drain fuel g self = (self', inl e) ->
     exists printed e',
       for_print fuel g self out = Some (self', out ++ printed, inl e')) /\
  (for_print fuel g self out = None ->
   exists self', drain fuel g self = (self', inr None)).
Proof.
  pose proof (for_print_follows_drain fuel g self out) as H.
  destruct (drain fuel g self) as [s [e|[items|]]].
  - split_and!; [intros ?? [=] | by intros ?? [= <- <-] |].
    destruct H as (printed & e' & ->). discriminate.
  - split_and!; [|intros ?? [=] | rewrite H; discriminate].
    intros ?? [= <- <-]. split; [done|].
    intros Hall. by rewrite H, print_items_all.
  - split_and!; [intros ?? [=] | intros ?? [=] | by eexists].
Qed.

(** X10. On an instance that has [length] but lost [width], [length]
    being a value whose text can be produced, the loop prints the length
    item and then raises the [AttributeError] for [width], while [list]
    raises it without giving any item. *)
Theorem loop_prints_before_failing (self : gmap string pyval) (l : pyval)
    (fuel : nat) (out : list (gmap string pyval)) :
  self !! "length" = Some l -> self !! "width" = None ->
  repr_raises l = None ->
  (2 <= fuel)%nat ->
  for_print fuel __iter__ self out
  = Some (self, out ++ [ {[ "length" := l ]} ],
          inl (AttributeError "'Rectangle' object has no attribute 'width'"))
  /\
  to_list fuel self
  = (self,
     inl (AttributeError "'Rectangle' object has no attribute 'width'")).
Proof.
  intros Hlen Hwid Hrepr Hfuel. destruct fuel as [|[|fuel]]; [lia..|].
  assert (next AfterLength self
          = (self, inl (AttributeError
                          "'Rectangle' object has no attribute 'width'")))
    as Hsecond.
  { simpl. unfold mbind, M_bind, getattr. by rewrite Hwid. }
  unfold to_list, __iter__. split.
  - rewrite for_print_unfold, (next_at_start self l Hlen).
    rewrite print_raises_singleton, Hrepr.
    by rewrite for_print_unfold, Hsecond.
  - rewrite drain_unfold, (next_at_start self l Hlen).
    by rewrite drain_unfold, Hsecond.
Qed.

Lemma loop_prints_before_failing_5 :
  ({[ "length" := PInt 5 ]} : gmap string pyval) !! "length" = Some (PInt 5)
  /\ ({[ "length" := PInt 5 ]} : gmap string pyval) !! "width" = None
  /\ repr_raises (PInt 5) = None
  /\ (2 <= 2)%nat
  /\ for_print 2 __iter__ {[ "length" := PInt 5 ]} []
     = Some ({[ "length" := PInt 5 ]}, [ {[ "length" := PInt 5 ]} ],
             inl (AttributeError
                    "'Rectangle' object has no attribute 'width'")).
Proof.
  split; [reflexivity|]. split; [reflexivity|]. split; [reflexivity|].
  split; [lia|].
  apply (loop_prints_before_failing {[ "length" := PInt 5 ]} (PInt 5) 2 []);
    [reflexivity | reflexivity | reflexivity | lia].
Defined.

(** X11. Run as a program, the module constructs [Rectangle(5, 3)]
    without an exception, prints [{"length": 5}] and then [{"width": 3}],
    nothing else, and ends normally; the loop takes three calls of [next],
    and two do not finish it. *)
Theorem script_prints_both (fuel : nat) :
  (3 <= fuel)%nat ->
  script fuel
  = Some ([ {[ "length" := PInt 5 ]}; {[ "width" := PInt 3 ]} ], inr tt) /\
  script 2 = None.
Proof.
  intros Hfuel. split; [|reflexivity].
  unfold script.
  assert (Rectangle (PInt 5) (PInt 3)
          = inr (<["width" := PInt 3]> (<["length" := PInt 5]> ∅))) as Hnew
    by by apply (Rectangle_positive _ _ 5 3).
  rewrite Hnew. destruct (Rectangle_attrs _ _ _ Hnew) as [Hlen Hwid].
  pose proof (for_print_follows_drain fuel __iter__
                (<["width" := PInt 3]> (<["length" := PInt 5]> ∅)) [])
    as Hloop.
  fold (to_list fuel) in Hloop.
  rewrite (to_list_both _ _ _ Hlen Hwid fuel Hfuel) in Hloop.
  rewrite Hloop, print_items_all; [done|].
  repeat constructor; by rewrite print_raises_singleton.
Qed.

Lemma script_prints_both_3 :
  (3 <= 3)%nat /\
  script 3
  = Some ([ {[ "length" := PInt 5 ]}; {[ "width" := PInt 3 ]} ], inr tt).
Proof. split; [lia|]. apply (script_prints_both 3). lia. Defined.

(** ** The text of an instance *)

Lemma all_chars_app p s t :
  all_chars p (s +:+ t) = all_chars p s && all_chars p t.
Proof.
  induction s as [|c s IH]; simpl; [done|]. by rewrite IH, andb_assoc.
Qed.

Lemma all_chars_impl (p q : ascii -> bool) s :
  (forall c, p c = true -> q c = true) ->
  all_chars p s = true -> all_chars q s = true.
Proof.
  intros Hpq. induction s as [|c s IH]; simpl; [done|].
  intros [Hc Hs]%andb_true_iff. apply andb_true_iff. auto.
Qed.

(** Two texts that agree up to a delimiter occurring in neither head have
    the same head and the same tail. *)
Lemma split_at_delimiter (p : ascii -> bool) (c : ascii) :
  p c = false ->
  forall s s' t t',
    all_chars p s = true -> all_chars p s' = true ->
    s +:+ String c t = s' +:+ String c t' -> s = s' /\ t = t'.
Proof.
  intros Hc. induction s as [|x s IH]; intros [|x' s'] t t'; simpl.
  - by intros _ _ [= ->].
  - intros _ [Hx' _]%andb_true_iff [= <- _]. congruence.
  - intros [Hx _]%andb_true_iff _ [= -> _]. congruence.
  - intros [_ Hs]%andb_true_iff [_ Hs']%andb_true_iff [= -> Heq].
    destruct (IH s' t t' Hs Hs' Heq) as [-> ->]. done.
Qed.

Lemma is_digit_pretty_N_char x : is_digit (pretty_N_char x) = true.
Proof. unfold pretty_N_char. by repeat case_match. Qed.

Lemma digits_pretty_N_go x :
  forall s, all_chars is_digit s = true ->
            all_chars is_digit (pretty_N_go x s) = true.
Proof.
  induction (N.lt_wf_0 x) as [x _ IH]. intros s Hs.
  destruct (decide (x = 0%N)) as [->|Hx]; [by rewrite pretty_N_go_0|].
  rewrite pretty_N_go_step by lia.
  apply IH; [apply N.div_lt; lia|].
  simpl. by rewrite is_digit_pretty_N_char.
Qed.

Lemma digits_pretty_positive (z : Z) :
  0 < z -> all_chars is_digit (pretty z) = true.
Proof.
  destruct z as [|q|q]; [lia| |lia]. intros _.
  change (pretty (Z.pos q)) with (pretty (N.pos q)).
  unfold pretty, pretty_N. case_decide; [done|].
  by apply digits_pretty_N_go.
Qed.

(** The field of a strictly positive integer of a built-in class, when it
    has one, is [True] or a run of digits, whatever the rendering of
    floats. *)
Lemma format_positive float_repr v z a :
  plain_int v = Some z -> 0 < z -> format float_repr v = inr a ->
  (v = PBool true /\ a = "True") \/
  (v = PInt z /\ a = pretty z /\ all_chars is_digit a = true).
Proof.
  intros Hv Hz Ha. destruct v as [|[|]|z'| | |]; simplify_eq/=.
  - by left.
  - lia.
  - right. unfold int_to_str in Ha.
    destruct (within_limit z); simplify_eq.
    split_and!; [done..|]. by apply digits_pretty_positive.
Qed.

Lemma format_field_chars float_repr v z a :
  plain_int v = Some z -> 0 < z -> format float_repr v = inr a ->
  all_chars field_char a = true.
Proof.
  intros Hv Hz Ha.
  destruct (format_positive _ _ _ _ Hv Hz Ha) as [[_ ->] | (_ & _ & Hd)];
    [done|].
  apply (all_chars_impl is_digit); [|done].
  intros c Hc. unfold field_char. by rewrite Hc.
Qed.

Lemma format_positive_inj fr1 fr2 v1 v2 z1 z2 a :
  plain_int v1 = Some z1 -> 0 < z1 ->
  plain_int v2 = Some z2 -> 0 < z2 ->
  format fr1 v1 = inr a -> format fr2 v2 = inr a -> v1 = v2.
Proof.
  intros Hv1 Hz1 Hv2 Hz2 Ha1 Ha2.
  destruct (format_positive _ _ _ _ Hv1 Hz1 Ha1)
    as [[-> H1] | (-> & H1 & Hd1)],
     (format_positive _ _ _ _ Hv2 Hz2 Ha2)
    as [[-> H2] | (-> & H2 & Hd2)].
  - done.
  - by rewrite H1 in Hd2.
  - by rewrite H2 in Hd1.
  - f_equal. apply (inj pretty). congruence.
Qed.

(** The text of an [int] instance does not depend on how floats are
    rendered. *)
Lemma format_int_instance fr1 fr2 v :
  isinstance_int v = true -> format fr1 v = format fr2 v.
Proof. by destruct v as [|[|]| | | |]. Qed.

Lemma Rectangle_isinstance length width self :
  Rectangle length width = inr self ->
  isinstance_int length = true /\ isinstance_int width = true.
Proof.
  intros H. unfold Rectangle in H.
  destruct (isinstance_int length) eqn:Hl;
    [|rewrite init_not_int in H by auto; discriminate].
  destruct (isinstance_int width) eqn:Hw;
    [|rewrite init_not_int in H by auto; discriminate].
  done.
Qed.

(** What a returned text tells. *)
Lemma repr_returned float_repr self l w text :
  self !! "length" = Some l -> self !! "width" = Some w ->
  __repr__ float_repr self = (self, inr text) ->
  exists a b,
    format float_repr l = inr a /\ format float_repr w = inr b /\
    text = "Rectangle(length=" +:+ a +:+ ", width=" +:+ b +:+ ")".
Proof.
  intros Hl Hw. rewrite repr_unfold, Hl, Hw.
  destruct (format float_repr l) as [e|a]; [discriminate|].
  destruct (format float_repr w) as [e|b]; [discriminate|].
  intros [= <-]. by exists a, b.
Qed.

(** X12. The text of a constructed instance holds no rendering of a
    float: [repr] gives the same outcome whatever [repr] of floats is;
    and when the arguments were of built-in classes and [repr] returns,
    the text has, between [length=] and the comma and between [width=]
    and the closing parenthesis, only digits or the letters of [True]. *)
Theorem repr_has_integer_fields (fr1 fr2 : spec_float -> string)
    (length width : pyval) (self : gmap string pyval) :
  Rectangle length width = inr self ->
  __repr__ fr1 self = __repr__ fr2 self /\
  (builtin length = true -> builtin width = true ->
   forall text,
     __repr__ fr1 self = (self, inr text) ->
     exists a b,
       text = "Rectangle(length=" +:+ a +:+ ", width=" +:+ b +:+ ")" /\
       all_chars field_char a = true /\ all_chars field_char b = true).
Proof.
  intros Hnew.
  destruct (Rectangle_attrs _ _ _ Hnew) as [Hlen Hwid].
  destruct (Rectangle_isinstance _ _ _ Hnew) as [Hil Hiw].
  split.
  - rewrite !repr_unfold, Hlen, Hwid.
    by rewrite (format_int_instance fr1 fr2 length Hil),
               (format_int_instance fr1 fr2 width Hiw).
  - intros Hbl Hbw text Htext.
    destruct (repr_returned _ _ _ _ _ Hlen Hwid Htext)
      as (a & b & Ha & Hb & ->).
    destruct (Rectangle_cases length width Hbl Hbw)
      as [[_ HT] | [(x & y & _ & _ & _ & HV)
                   | (x & y & Hx & Hy & Hpx & Hpy & _)]];
      [congruence.. |].
    exists a, b. split_and!; [done | |].
    + by apply (format_field_chars fr1 length x).
    + by apply (format_field_chars fr1 width y).
Qed.

Lemma repr_has_integer_fields_True_2 :
  (Rectangle (PBool true) (PInt 2)
   = inr (<["width" := PInt 2]> (<["length" := PBool true]> ∅))) /\
  (__repr__ (fun _ => "nan") (<["width" := PInt 2]> (<["length" := PBool true]> ∅))
   = __repr__ (fun _ => "inf") (<["width" := PInt 2]> (<["length" := PBool true]> ∅))).
Proof.
  split; [reflexivity|].
  apply (repr_has_integer_fields (fun _ => "nan") (fun _ => "inf")
           (PBool true) (PInt 2)).
  reflexivity.
Defined.

(** X13. The text identifies the dimensions: when two instances
    constructed from arguments of built-in classes both have a [repr]
    and it is the same text, they were constructed from the same [length]
    and the same [width], and their attribute dictionaries are equal. *)
Theorem repr_identifies_instance (fr1 fr2 : spec_float -> string)
    (length1 width1 length2 width2 : pyval)
    (self1 self2 : gmap string pyval) (text : string) :
  builtin length1 = true -> builtin width1 = true ->
  builtin length2 = true -> builtin width2 = true ->
  Rectangle length1 width1 = inr self1 ->
  Rectangle length2 width2 = inr self2 ->
  __repr__ fr1 self1 = (self1, inr text) ->
  __repr__ fr2 self2 = (self2, inr text) ->
  length1 = length2 /\ width1 = width2 /\ self1 = self2.
Proof.
  intros Hbl1 Hbw1 Hbl2 Hbw2 Hnew1 Hnew2 Htext1 Htext2.
  destruct (Rectangle_attrs _ _ _ Hnew1) as [Hlen1 Hwid1].
  destruct (Rectangle_attrs _ _ _ Hnew2) as [Hlen2 Hwid2].
  destruct (repr_returned _ _ _ _ _ Hlen1 Hwid1 Htext1)
    as (a1 & b1 & Ha1 & Hb1 & ->).
  destruct (repr_returned _ _ _ _ _ Hlen2 Hwid2 Htext2)
    as (a2 & b2 & Ha2 & Hb2 & Heq).
  destruct (Rectangle_cases length1 width1 Hbl1 Hbw1)
    as [[_ HT] | [(x1 & y1 & _ & _ & _ & HV)
                 | (x1 & y1 & Hx1 & Hy1 & Hpx1 & Hpy1 & _)]];
    [congruence.. |].
  destruct (Rectangle_cases length2 width2 Hbl2 Hbw2)
    as [[_ HT] | [(x2 & y2 & _ & _ & _ & HV)
                 | (x2 & y2 & Hx2 & Hy2 & Hpx2 & Hpy2 & _)]];
    [congruence.. |].
  apply Rectangle_stores in Hnew1 as ->.
  apply Rectangle_stores in Hnew2 as ->.
  simpl in Heq. injection Heq as Heq.
  assert (all_chars field_char a1 = true) as Hfa1
    by by apply (format_field_chars fr1 length1 x1).
  assert (all_chars field_char a2 = true) as Hfa2
    by by apply (format_field_chars fr2 length2 x2).
  assert (all_chars field_char b1 = true) as Hfb1
    by by apply (format_field_chars fr1 width1 y1).
  assert (all_chars field_char b2 = true) as Hfb2
    by by apply (format_field_chars fr2 width2 y2).
  destruct (split_at_delimiter field_char "," eq_refl
              a1 a2 (" width=" +:+ b1 +:+ ")") (" width=" +:+ b2 +:+ ")")
              Hfa1 Hfa2 Heq) as [-> Htail].
  simpl in Htail. injection Htail as Htail.
  destruct (split_at_delimiter field_char ")" eq_refl b1 b2 "" ""
              Hfb1 Hfb2 Htail) as [-> _].
  assert (length1 = length2) as ->
    by by eapply (format_positive_inj fr1 fr2 _ _ x1 x2).
  assert (width1 = width2) as ->
    by by eapply (format_positive_inj fr1 fr2 _ _ y1 y2).
  done.
Qed.

Lemma repr_identifies_instance_5_3 :
  (Rectangle (PInt 5) (PInt 3)
   = inr (<["width" := PInt 3]> (<["length" := PInt 5]> ∅))) /\
  (__repr__ (fun _ => "") (<["width" := PInt 3]> (<["length" := PInt 5]> ∅))
   = (<["width" := PInt 3]> (<["length" := PInt 5]> ∅),
      inr "Rectangle(length=5, width=3)")) /\
  (PInt 5 = PInt 5 /\ PInt 3 = PInt 3 /\
   (<["width" := PInt 3]> (<["length" := PInt 5]> ∅) : gmap string pyval)
   = <["width" := PInt 3]> (<["length" := PInt 5]> ∅)).
Proof.
  split; [reflexivity|]. split; [reflexivity|].
  apply (repr_identifies_instance (fun _ => "") (fun _ => "")
           (PInt 5) (PInt 3) (PInt 5) (PInt 3) _ _
           "Rectangle(length=5, width=3)");
    reflexivity.
Defined.
